(** * Heap-snapshot diagnostic plugin: [snapshot_server.js]

    A shallow embedding of the plugin's server file and the properties of
    its one guarded operation, [takeSnapshot], and of the callbacks the
    file registers at load time.

    The file talks to four collaborators: the logger of the host
    ([logInfo], [logWarn], [logError]), V8's introspection ([v8.getHeapStatistics],
    [v8.writeHeapSnapshot]), [process.memoryUsage] and the clock ([Date.now]).
    None of them is part of the plugin, so a run is modelled against a
    [world] that fixes how each of them answers, and the run produces the
    sequence of calls made to them together with its completion (normal
    return, or a raised JavaScript value). *)

From Stdlib Require Import ZArith NArith QArith Qround Lqa List String Ascii Bool Lia.
From Stdlib Require Import DecimalString DecimalZ DecimalPos.
Import ListNotations.

Open Scope string_scope.

(** ** JavaScript numbers and strings *)

Module Js.

(** [String.prototype.includes]: [sub] occurs somewhere in [s]. *)
Fixpoint includes (s sub : string) : bool :=
  if String.prefix sub s then true
  else match s with
       | EmptyString => false
       | String _ s' => includes s' sub
       end.

(** [Number::toString] on an integral Number of magnitude below 1e21 (every
    value this file prints: the clock in milliseconds and the threshold
    constant): the decimal digits, with a leading minus sign when negative. *)
Definition number_to_string (z : Z) : string :=
  NilZero.string_of_int (Z.to_int z).

Fixpoint zeros (n : nat) : string :=
  match n with
  | O => EmptyString
  | S n' => String "0" (zeros n')
  end.

(** The rounding step of [toFixed] in ECMA-262, for [x >= 0]: "let n be an
    integer for which n / 10^f - x is as close to zero as possible; if
    there are two such n, pick the larger n". *)
Definition nearest (x : Q) (f : nat) : Z :=
  Qfloor (x * inject_Z (10 ^ Z.of_nat f) + (1 # 2)).

(** [Number.prototype.toFixed(f)], following the steps of ECMA-262 for a
    finite [x] of magnitude below 1e21.  The argument is the exact
    mathematical value of the Number, which is what the standard rounds. *)
Definition toFixed (x : Q) (f : nat) : string :=
  let neg := negb (Qle_bool 0 x) in
  let x := if neg then Qopp x else x in
  let n := nearest x f in
  let m := number_to_string n in
  let m :=
    match f with
    | O => m
    | S _ =>
        let k := String.length m in
        let m := if Nat.leb k f then zeros (f + 1 - k) ++ m else m in
        let k := String.length m in
        substring 0 (k - f) m ++ "." ++ substring (k - f) f m
    end in
  if neg then String "-" m else m.

End Js.

(** ** Values, completions and the collaborators *)

(** The JavaScript values that matter here: what a collaborator may raise
    and what is handed to the logger.  [JsError m] is an [Error] object
    whose [message] property is the string [m]; [JsObject] is an object
    without a [message] property. *)
Inductive value : Type :=
| JsUndefined
| JsNull
| JsBoolean (b : bool)
| JsNumber (z : Z)
| JsString (s : string)
| JsError (message : string)
| JsObject.

(** How a call ends: it returns, or it raises a value. *)
Inductive completion (A : Type) : Type :=
| Normal (a : A)
| Throw (v : value).
Arguments Normal {A} a.
Arguments Throw {A} v.

(** The three functions of [server/console]. *)
Inductive level : Type := Info | Warn | Error.

(** The object [v8.getHeapStatistics()] returns, reduced to the field read. *)
Record HeapStatistics : Type := { used_heap_size : N }.

(** The object [process.memoryUsage()] returns, reduced to the field read. *)
Record MemoryUsage : Type := { heapUsed : N }.

(** A call made to a collaborator.  [Log Info args] is [logInfo(...args)],
    [Log Warn args] is [logWarn(...args)], [Log Error args] is
    [logError(...args)]. *)
Inductive call : Type :=
| GetHeapStatistics
| ProcessMemoryUsage
| DateNow
| WriteHeapSnapshot (filename : string)
| Log (lvl : level) (args : list value).

(** How the collaborators answer during one run.  Within a run the heap
    statistics, the clock and the serialization are each called at most
    once, and the logger calls differ in their arguments, so an answer per
    call is an answer per argument.  Byte counts are
    non-negative integers; below 2^53 they are exact Numbers and dividing
    them by 1024 * 1024 is exact in binary64 (a division by a power of
    two), so the quotient is modelled by the rational it equals. *)
Record world : Type := {
  v8_heap : completion HeapStatistics;
  process_memory : completion MemoryUsage;
  clock : Z;
  v8_write : string -> completion unit;
  console : level -> list value -> completion unit
}.

(** A computation reads the world, records its calls in order and ends in a
    completion. *)
Definition M (A : Type) : Type := world -> list call * completion A.

Definition ret {A} (a : A) : M A := fun _ => ([], Normal a).

Definition bind {A B} (m : M A) (k : A -> M B) : M B :=
  fun w =>
    match m w with
    | (t, Normal a) => let (t', r) := k a w in ((t ++ t')%list, r)
    | (t, Throw v) => (t, Throw v)
    end.

(** [try { body } catch (err) { handler }] *)
Definition try_catch {A} (body : M A) (handler : value -> M A) : M A :=
  fun w =>
    match body w with
    | (t, Normal a) => (t, Normal a)
    | (t, Throw v) => let (t', r) := handler v w in ((t ++ t')%list, r)
    end.

Definition perform {A} (c : call) (answer : world -> completion A) : M A :=
  fun w => ([c], answer w).

Declare Scope js_scope.
Delimit Scope js_scope with js.
Notation "x <- m ;; k" := (bind m (fun x => k))
  (at level 61, m at next level, right associativity) : js_scope.
Notation "m ;; k" := (bind m (fun _ => k))
  (at level 61, right associativity) : js_scope.

Definition v8_getHeapStatistics : M HeapStatistics :=
  perform GetHeapStatistics v8_heap.

Definition process_memoryUsage : M MemoryUsage :=
  perform ProcessMemoryUsage process_memory.

Definition Date_now : M Z :=
  perform DateNow (fun w => Normal (clock w)).

Definition v8_writeHeapSnapshot (filename : string) : M unit :=
  perform (WriteHeapSnapshot filename) (fun w => v8_write w filename).

Definition logInfo (args : list value) : M unit :=
  perform (Log Info args) (fun w => console w Info args).

Definition logWarn (args : list value) : M unit :=
  perform (Log Warn args) (fun w => console w Warn args).

Definition logError (args : list value) : M unit :=
  perform (Log Error args) (fun w => console w Error args).

(** [err.message]: reading a property of [null] or [undefined] raises a
    [TypeError]; a primitive or an object without the property gives
    [undefined]. *)
Definition message_of (err : value) : completion value :=
  match err with
  | JsUndefined =>
      Throw (JsError "Cannot read properties of undefined (reading 'message')")
  | JsNull =>
      Throw (JsError "Cannot read properties of null (reading 'message')")
  | JsError m => Normal (JsString m)
  | JsBoolean _ | JsNumber _ | JsString _ | JsObject => Normal JsUndefined
  end.

Definition get_message (err : value) : M value :=
  fun _ => ([], message_of err).

(** [x > y] on Numbers that are exact rationals. *)
Definition gt (x y : Q) : bool := negb (Qle_bool x y).

(** ** The program *)

Section Snapshot.

(** [path.dirname(require.main.filename)], fixed when the module loads. *)
Variable rootDir : string.

(** The two constants at the top of the file, integers as in the source,
    which sets them to [6] and [250] (see [source_SNAPSHOT_INTERVAL_HOURS]
    and [source_SAFE_HEAP_THRESHOLD_MB] below). *)
Variable SNAPSHOT_INTERVAL_HOURS : Z.
Variable SAFE_HEAP_THRESHOLD_MB : Z.

Open Scope js_scope.

Definition heapUsedMB_of (stats : HeapStatistics) : Q :=
  inject_Z (Z.of_N (used_heap_size stats)) / (1024 * 1024).

Definition usage_line (heapUsedMB : Q) : string :=
  "[SNAPSHOT] Current heap used: " ++ Js.toFixed heapUsedMB 1 ++ " MB".

Definition skipped_line (heapUsedMB : Q) : string :=
  "Snapshot skipped: heap " ++ Js.toFixed heapUsedMB 1 ++ " MB > safe "
    ++ Js.number_to_string SAFE_HEAP_THRESHOLD_MB ++ " MB".

Definition snapshot_filename (now : Z) : string :=
  rootDir ++ "/heap-" ++ Js.number_to_string now ++ ".heapsnapshot".

Definition written_line (filename : string) (heapUsedMB : Q) : string :=
  "[SNAPSHOT] Snapshot written: " ++ filename ++ " (used "
    ++ Js.toFixed heapUsedMB 1 ++ " MB)".

Definition takeSnapshot : M unit :=
  stats <- v8_getHeapStatistics ;;
  let heapUsedMB := heapUsedMB_of stats in
  logInfo [JsString (usage_line heapUsedMB)] ;;
  if gt heapUsedMB (inject_Z SAFE_HEAP_THRESHOLD_MB) then
    logError [JsString (skipped_line heapUsedMB)]
  else
    now <- Date_now ;;
    let filename := snapshot_filename now in
    try_catch
      (v8_writeHeapSnapshot filename ;;
       logInfo [JsString (written_line filename heapUsedMB)])
      (fun err =>
         message <- get_message err ;;
         logError [JsString "[SNAPSHOT] Snapshot failed:"; message]).

(** The listener of [process.on('SIGUSR2', ...)]. *)
Definition on_SIGUSR2 : M unit :=
  logInfo [JsString "[SNAPSHOT] SIGUSR2 --> taking snapshot"] ;;
  takeSnapshot.

(** The callback of the first [setInterval]. *)
Definition periodic_check : M unit :=
  logInfo [JsString "[SNAPSHOT] Periodic snapshot check"] ;;
  takeSnapshot.

Definition heap_used_line (u : MemoryUsage) : string :=
  "[SNAPSHOT] Heap used: "
    ++ Js.toFixed (inject_Z (Z.of_N (heapUsed u)) / 1024 / 1024) 1 ++ " MB".

(** The callback of the second [setInterval]. *)
Definition usage_report : M unit :=
  u <- process_memoryUsage ;;
  logInfo [JsString (heap_used_line u)].

(** The callback of the [setTimeout]. *)
Definition startup_reminder : M unit :=
  logWarn [JsString
    "[SNAPSHOT] Snapshot is running - be sure to read all instructions in the file"].

(** What the module registers when it is loaded, in source order; delays
    are in milliseconds. *)
Inductive registration : Type :=
| ProcessOn (signal : string) (listener : M unit)
| SetInterval (callback : M unit) (delay : Z)
| SetTimeout (callback : M unit) (delay : Z).

Definition module_load : list registration :=
  [ ProcessOn "SIGUSR2" on_SIGUSR2;
    SetInterval periodic_check (SNAPSHOT_INTERVAL_HOURS * 60 * 60 * 1000);
    SetInterval usage_report (1 * 60 * 60 * 1000);
    SetTimeout startup_reminder (60 * 1000) ].

End Snapshot.

(** The values the source gives the two constants. *)
Definition source_SNAPSHOT_INTERVAL_HOURS : Z := 6.
Definition source_SAFE_HEAP_THRESHOLD_MB : Z := 250.

(** ** Observations on a run *)

(** The calls a computation makes in a world, and how it ends. *)
Definition calls {A} (m : M A) (w : world) : list call := fst (m w).
Definition outcome {A} (m : M A) (w : world) : completion A := snd (m w).

(** The filenames of the file writes attempted, in order. *)
Fixpoint writes (t : list call) : list string :=
  match t with
  | [] => []
  | WriteHeapSnapshot f :: t' => f :: writes t'
  | _ :: t' => writes t'
  end.

(** The logger calls at one level, in order. *)
Fixpoint logged (lvl : level) (t : list call) : list (list value) :=
  match t with
  | [] => []
  | Log l args :: t' =>
      match l, lvl with
      | Info, Info | Warn, Warn | Error, Error => args :: logged lvl t'
      | _, _ => logged lvl t'
      end
  | _ :: t' => logged lvl t'
  end.

(** Whether the clock is read. *)
Fixpoint reads_clock (t : list call) : bool :=
  match t with
  | [] => false
  | DateNow :: _ => true
  | _ :: t' => reads_clock t'
  end.

(** The three lines on which a run of [takeSnapshot] can end. *)
Inductive result_line : Type := SkippedLine | WrittenLine | FailedLine.

Definition classify (c : call) : option result_line :=
  match c with
  | Log Error [JsString s] =>
      if String.prefix "Snapshot skipped:" s then Some SkippedLine else None
  | Log Info [JsString s] =>
      if String.prefix "[SNAPSHOT] Snapshot written:" s then Some WrittenLine
      else None
  | Log Error [JsString s; _] =>
      if String.eqb s "[SNAPSHOT] Snapshot failed:" then Some FailedLine
      else None
  | _ => None
  end.

Fixpoint result_lines (t : list call) : list result_line :=
  match t with
  | [] => []
  | c :: t' =>
      match classify c with
      | Some r => r :: result_lines t'
      | None => result_lines t'
      end
  end.

(** The informational line that reports the heap usage. *)
Definition is_usage_line (c : call) : bool :=
  match c with
  | Log Info [JsString s] => String.prefix "[SNAPSHOT] Current heap used:" s
  | _ => false
  end.

(** A raised value whose [message] property cannot be read. *)
Definition nullish (v : value) : bool :=
  match v with
  | JsUndefined | JsNull => true
  | _ => false
  end.

(** A logger that honours its contract: every call returns. *)
Definition console_returns (w : world) : Prop :=
  forall lvl args, console w lvl args = Normal tt.

(** ** Sample worlds *)

Definition MiB : N := 1048576.

Definition quiet_console : level -> list value -> completion unit :=
  fun _ _ => Normal tt.

(** A world whose heap holds [used] bytes, whose clock shows [now] and whose
    serialization ends in [write]. *)
Definition sample_world (used : N) (now : Z) (write : completion unit) : world :=
  {| v8_heap := Normal {| used_heap_size := used |};
     process_memory := Normal {| heapUsed := used |};
     clock := now;
     v8_write := fun _ => write;
     console := quiet_console |}.

(** 100 MB used, the write succeeds. *)
Definition world_low : world :=
  sample_world (100 * MiB) 1700000000000 (Normal tt).

(** 300 MB used. *)
Definition world_high : world :=
  sample_world (300 * MiB) 1700000000000 (Normal tt).

(** Exactly 250 MB used, one millisecond later. *)
Definition world_at_threshold : world :=
  sample_world (250 * MiB) 1700000000001 (Normal tt).

(** 100 MB used, the serialization raises an [Error] with message ENOSPC. *)
Definition world_disk_full : world :=
  sample_world (100 * MiB) 42 (Throw (JsError "ENOSPC")).

(** 100 MB used, the serialization raises [null]. *)
Definition world_raises_null : world :=
  sample_world (100 * MiB) 1700000000000 (Throw JsNull).

(** The heap read itself fails. *)
Definition world_heap_read_fails : world :=
  {| v8_heap := Throw (JsError "heap statistics unavailable");
     process_memory := Normal {| heapUsed := 100 * MiB |};
     clock := 1700000000000;
     v8_write := fun _ => Normal tt;
     console := quiet_console |}.

(** The logger fails on every call. *)
Definition world_logger_fails : world :=
  {| v8_heap := Normal {| used_heap_size := 100 * MiB |};
     process_memory := Normal {| heapUsed := 100 * MiB |};
     clock := 1700000000000;
     v8_write := fun _ => Normal tt;
     console := fun _ _ => Throw (JsError "EPIPE") |}.

(** 100 MB used, the serialization raises the bare string ENOSPC. *)
Definition world_raises_string : world :=
  sample_world (100 * MiB) 1700000000000 (Throw (JsString "ENOSPC")).

(** 100 MB used, the write succeeds, and the logger raises on the line that
    confirms it (and on no other call). *)
Definition world_success_log_fails : world :=
  {| v8_heap := Normal {| used_heap_size := 100 * MiB |};
     process_memory := Normal {| heapUsed := 100 * MiB |};
     clock := 1700000000000;
     v8_write := fun _ => Normal tt;
     console := fun lvl args =>
       match lvl, args with
       | Info, [JsString s] =>
           if String.prefix "[SNAPSHOT] Snapshot written:" s
           then Throw (JsError "EPIPE") else Normal tt
       | _, _ => Normal tt
       end |}.

(** [process.memoryUsage()] raises. *)
Definition world_memory_read_fails : world :=
  {| v8_heap := Normal {| used_heap_size := 100 * MiB |};
     process_memory := Throw (JsError "ENOMEM");
     clock := 1700000000000;
     v8_write := fun _ => Normal tt;
     console := quiet_console |}.

(** ** Counting calls *)

Definition count_calls (p : call -> bool) (t : list call) : nat :=
  List.length (filter p t).

Definition is_heap_read (c : call) : bool :=
  match c with GetHeapStatistics => true | _ => false end.

Definition is_memory_read (c : call) : bool :=
  match c with ProcessMemoryUsage => true | _ => false end.

Definition is_clock_read (c : call) : bool :=
  match c with DateNow => true | _ => false end.

Definition is_write (c : call) : bool :=
  match c with WriteHeapSnapshot _ => true | _ => false end.

Definition is_log (c : call) : bool :=
  match c with Log _ _ => true | _ => false end.


(** ** Strings and numbers: auxiliary facts *)

Example toFixed_300 : Js.toFixed (300 # 1) 1 = "300.0".
Proof. reflexivity. Qed.

Example toFixed_small : Js.toFixed (1 # 25) 1 = "0.0".
Proof. reflexivity. Qed.

Example toFixed_tie : Js.toFixed (1 # 4) 1 = "0.3".
Proof. reflexivity. Qed.

Example toFixed_two_digits : Js.toFixed (12345 # 1000) 2 = "12.35".
Proof. reflexivity. Qed.

Example number_to_string_examples :
  Js.number_to_string 0 = "0" /\ Js.number_to_string 250 = "250"
  /\ Js.number_to_string (-17) = "-17"
  /\ Js.number_to_string 1700000000000 = "1700000000000".
Proof. repeat split. Qed.

Module JsFacts.

(** The integer [toFixed] prints is within half a unit of the last place. *)
Lemma nearest_spec (x : Q) (f : nat) :
  let scaled := (x * inject_Z (10 ^ Z.of_nat f))%Q in
  (inject_Z (Js.nearest x f) - (1 # 2) <= scaled)%Q
  /\ (scaled < inject_Z (Js.nearest x f) + (1 # 2))%Q.
Proof.
  intros scaled. unfold Js.nearest. fold scaled.
  pose proof (Qfloor_le (scaled + (1 # 2))) as Hlo.
  pose proof (Qlt_floor (scaled + (1 # 2))) as Hhi.
  rewrite inject_Z_plus in Hhi.
  change (inject_Z 1) with 1%Q in Hhi.
  split; lra.
Qed.

(** The threshold test, on the byte count itself. *)
Lemma threshold_test_in_bytes (stats : HeapStatistics) (T : Z) :
  gt (heapUsedMB_of stats) (inject_Z T)
  = (T * 1048576 <? Z.of_N (used_heap_size stats))%Z.
Proof.
  unfold gt, heapUsedMB_of, Qle_bool. simpl.
  rewrite Z.ltb_antisym. f_equal. f_equal; lia.
Qed.

Lemma prefix_append (s t : string) : String.prefix s (s ++ t) = true.
Proof.
  induction s as [|a s IH]; simpl.
  - now destruct t.
  - destruct (ascii_dec a a) as [_|ne]; [exact IH | now elim ne].
Qed.

Lemma includes_unfold (s sub : string) :
  Js.includes s sub =
  if String.prefix sub s then true
  else match s with
       | EmptyString => false
       | String _ s' => Js.includes s' sub
       end.
Proof. now destruct s. Qed.

Lemma includes_head (sub q : string) : Js.includes (sub ++ q) sub = true.
Proof. rewrite includes_unfold, prefix_append. reflexivity. Qed.

Lemma includes_skip (p s sub : string) :
  Js.includes s sub = true -> Js.includes (p ++ s) sub = true.
Proof.
  intros H. induction p as [|a p IH]; [exact H|].
  change (String a p ++ s) with (String a (p ++ s)).
  rewrite includes_unfold, IH.
  now destruct (String.prefix sub (String a (p ++ s))).
Qed.

Lemma append_inv_head (s a b : string) : s ++ a = s ++ b -> a = b.
Proof.
  induction s as [|c s IH]; simpl; intros H; [exact H|].
  injection H as H. auto.
Qed.

Lemma list_ascii_of_append (a b : string) :
  list_ascii_of_string (a ++ b)
  = (list_ascii_of_string a ++ list_ascii_of_string b)%list.
Proof. induction a as [|c a IH]; simpl; [reflexivity | now rewrite IH]. Qed.

Lemma append_inv_tail (a b t : string) : a ++ t = b ++ t -> a = b.
Proof.
  intros H. apply (f_equal list_ascii_of_string) in H.
  rewrite !list_ascii_of_append in H. apply app_inv_tail in H.
  rewrite <- (string_of_list_ascii_of_string a),
          <- (string_of_list_ascii_of_string b).
  now rewrite H.
Qed.

Lemma to_int_proper (z : Z) :
  Z.to_int z <> Decimal.Pos Decimal.Nil /\ Z.to_int z <> Decimal.Neg Decimal.Nil.
Proof.
  destruct z as [|p|p]; simpl; split; try discriminate;
    intros [= H]; now apply (DecimalPos.Unsigned.to_uint_nonnil p).
Qed.

Lemma number_to_string_inj (a b : Z) :
  Js.number_to_string a = Js.number_to_string b -> a = b.
Proof.
  unfold Js.number_to_string. intros H.
  apply (f_equal NilZero.int_of_string) in H.
  destruct (to_int_proper a) as [a1 a2], (to_int_proper b) as [b1 b2].
  rewrite !NilZero.isi in H by assumption.
  injection H as H. now apply DecimalZ.to_int_inj.
Qed.

Lemma gt_true (x y : Q) : gt x y = true <-> (y < x)%Q.
Proof.
  unfold gt. rewrite negb_true_iff. split.
  - intros H. apply Qnot_le_lt. intros L.
    apply Qle_bool_iff in L. congruence.
  - intros H. destruct (Qle_bool x y) eqn:E; [|reflexivity].
    apply Qle_bool_iff in E. now apply Qlt_not_le in H.
Qed.

Lemma gt_false (x y : Q) : gt x y = false <-> (x <= y)%Q.
Proof.
  unfold gt. rewrite negb_false_iff. apply Qle_bool_iff.
Qed.

End JsFacts.

(** ** Runs of [takeSnapshot] *)

Arguments Js.toFixed : simpl never.
Arguments Js.number_to_string : simpl never.

Ltac unfold_run :=
  cbv [calls outcome takeSnapshot on_SIGUSR2 periodic_check usage_report
       bind try_catch perform get_message
       v8_getHeapStatistics process_memoryUsage Date_now
       v8_writeHeapSnapshot logInfo logWarn logError].

Section Runs.

Variable rootDir : string.
Variable SAFE_HEAP_THRESHOLD_MB : Z.

(** Above the threshold: three calls, none of them a write. *)
Lemma run_skipped (w : world) (stats : HeapStatistics) :
  v8_heap w = Normal stats ->
  console_returns w ->
  gt (heapUsedMB_of stats) (inject_Z SAFE_HEAP_THRESHOLD_MB) = true ->
  takeSnapshot rootDir SAFE_HEAP_THRESHOLD_MB w =
  ([GetHeapStatistics;
    Log Info [JsString (usage_line (heapUsedMB_of stats))];
    Log Error [JsString (skipped_line SAFE_HEAP_THRESHOLD_MB (heapUsedMB_of stats))]],
   Normal tt).
Proof.
  intros Hheap Hlog Hgt. unfold_run.
  rewrite Hheap, Hlog, Hgt, Hlog. reflexivity.
Qed.

(** At or below the threshold, the serialization returns. *)
Lemma run_written (w : world) (stats : HeapStatistics) :
  v8_heap w = Normal stats ->
  console_returns w ->
  gt (heapUsedMB_of stats) (inject_Z SAFE_HEAP_THRESHOLD_MB) = false ->
  v8_write w (snapshot_filename rootDir (clock w)) = Normal tt ->
  takeSnapshot rootDir SAFE_HEAP_THRESHOLD_MB w =
  ([GetHeapStatistics;
    Log Info [JsString (usage_line (heapUsedMB_of stats))];
    DateNow;
    WriteHeapSnapshot (snapshot_filename rootDir (clock w));
    Log Info [JsString (written_line (snapshot_filename rootDir (clock w))
                                     (heapUsedMB_of stats))]],
   Normal tt).
Proof.
  intros Hheap Hlog Hgt Hwrite. unfold_run.
  rewrite Hheap, Hlog, Hgt, Hwrite, Hlog. reflexivity.
Qed.

(** At or below the threshold, the serialization raises a value whose
    [message] can be read. *)
Lemma run_failed (w : world) (stats : HeapStatistics) (v detail : value) :
  v8_heap w = Normal stats ->
  console_returns w ->
  gt (heapUsedMB_of stats) (inject_Z SAFE_HEAP_THRESHOLD_MB) = false ->
  v8_write w (snapshot_filename rootDir (clock w)) = Throw v ->
  message_of v = Normal detail ->
  takeSnapshot rootDir SAFE_HEAP_THRESHOLD_MB w =
  ([GetHeapStatistics;
    Log Info [JsString (usage_line (heapUsedMB_of stats))];
    DateNow;
    WriteHeapSnapshot (snapshot_filename rootDir (clock w));
    Log Error [JsString "[SNAPSHOT] Snapshot failed:"; detail]],
   Normal tt).
Proof.
  intros Hheap Hlog Hgt Hwrite Hmsg. unfold_run.
  rewrite Hheap, Hlog, Hgt, Hwrite, Hmsg, Hlog. reflexivity.
Qed.

(** Whatever the collaborators do, a run writes at most once, and to the
    name built from the clock. *)
Lemma writes_shape (w : world) :
  writes (calls (takeSnapshot rootDir SAFE_HEAP_THRESHOLD_MB) w) = []
  \/ writes (calls (takeSnapshot rootDir SAFE_HEAP_THRESHOLD_MB) w) = [snapshot_filename rootDir (clock w)].
Proof.
  unfold_run.
  destruct (v8_heap w) as [stats|v]; [|now left].
  destruct (console w Info [JsString (usage_line (heapUsedMB_of stats))])
    as [[]|v]; [|now left].
  destruct (gt (heapUsedMB_of stats) (inject_Z SAFE_HEAP_THRESHOLD_MB)).
  - destruct (console w Error _); now left.
  - destruct (v8_write w (snapshot_filename rootDir (clock w))) as [[]|v].
    + destruct (console w Info _) as [[]|v]; [now right|].
      destruct (message_of v); [|now right].
      destruct (console w Error _); now right.
    + destruct (message_of v); [|now right].
      destruct (console w Error _); now right.
Qed.

(** A run starts by reading the heap statistics. *)
Lemma run_starts_with_heap_read (w : world) :
  exists rest, calls (takeSnapshot rootDir SAFE_HEAP_THRESHOLD_MB) w = GetHeapStatistics :: rest.
Proof.
  unfold_run.
  destruct (v8_heap w) as [stats|v]; [|now eexists].
  destruct (console w Info _) as [[]|v]; [|now eexists].
  destruct (gt _ _).
  - destruct (console w Error _); now eexists.
  - destruct (v8_write w _) as [[]|v].
    + destruct (console w Info _) as [[]|v]; [now eexists|].
      destruct (message_of v); [|now eexists].
      destruct (console w Error _); now eexists.
    + destruct (message_of v); [|now eexists].
      destruct (console w Error _); now eexists.
Qed.

(** At or below the threshold the clock is read and the write is attempted,
    whatever the serialization then does; at most one logger call follows. *)
Lemma run_attempt (w : world) (stats : HeapStatistics) :
  v8_heap w = Normal stats ->
  console_returns w ->
  gt (heapUsedMB_of stats) (inject_Z SAFE_HEAP_THRESHOLD_MB) = false ->
  exists tail,
    calls (takeSnapshot rootDir SAFE_HEAP_THRESHOLD_MB) w =
      GetHeapStatistics
      :: Log Info [JsString (usage_line (heapUsedMB_of stats))]
      :: DateNow
      :: WriteHeapSnapshot (snapshot_filename rootDir (clock w))
      :: tail
    /\ (tail = [] \/ exists lvl args, tail = [Log lvl args]).
Proof.
  intros Hheap Hlog Hgt. unfold_run.
  rewrite Hheap, Hlog, Hgt.
  destruct (v8_write w (snapshot_filename rootDir (clock w))) as [[]|v].
  - rewrite Hlog. eexists; split; [reflexivity|]. right. now do 2 eexists.
  - destruct (message_of v) as [detail|e].
    + rewrite Hlog. eexists; split; [reflexivity|]. right. now do 2 eexists.
    + eexists; split; [reflexivity|]. now left.
Qed.

Lemma writes_within_threshold (w : world) (stats : HeapStatistics) :
  v8_heap w = Normal stats ->
  console_returns w ->
  (heapUsedMB_of stats <= inject_Z SAFE_HEAP_THRESHOLD_MB)%Q ->
  writes (calls (takeSnapshot rootDir SAFE_HEAP_THRESHOLD_MB) w)
    = [snapshot_filename rootDir (clock w)].
Proof.
  intros Hheap Hlog Hle. apply JsFacts.gt_false in Hle.
  destruct (run_attempt w stats Hheap Hlog Hle) as (tail & -> & Htail).
  destruct Htail as [->|(lvl & args & ->)]; reflexivity.
Qed.

Lemma message_readable (v : value) :
  nullish v = false -> exists detail, message_of v = Normal detail.
Proof. destruct v; simpl; intros H; try discriminate H; now eexists. Qed.

(** When the heap read and the logger return and the serialization raises
    nothing nullish, a run is one of three call sequences and returns. *)
Lemma run_cases (w : world) (stats : HeapStatistics) :
  v8_heap w = Normal stats ->
  console_returns w ->
  (forall v, v8_write w (snapshot_filename rootDir (clock w)) = Throw v ->
             nullish v = false) ->
  let mb := heapUsedMB_of stats in
  let filename := snapshot_filename rootDir (clock w) in
  let run := takeSnapshot rootDir SAFE_HEAP_THRESHOLD_MB w in
  (gt mb (inject_Z SAFE_HEAP_THRESHOLD_MB) = true
   /\ run = ([GetHeapStatistics;
              Log Info [JsString (usage_line mb)];
              Log Error [JsString (skipped_line SAFE_HEAP_THRESHOLD_MB mb)]],
             Normal tt))
  \/ (gt mb (inject_Z SAFE_HEAP_THRESHOLD_MB) = false
      /\ v8_write w filename = Normal tt
      /\ run = ([GetHeapStatistics;
                 Log Info [JsString (usage_line mb)];
                 DateNow;
                 WriteHeapSnapshot filename;
                 Log Info [JsString (written_line filename mb)]],
                Normal tt))
  \/ (gt mb (inject_Z SAFE_HEAP_THRESHOLD_MB) = false
      /\ exists v detail,
           v8_write w filename = Throw v
           /\ run = ([GetHeapStatistics;
                      Log Info [JsString (usage_line mb)];
                      DateNow;
                      WriteHeapSnapshot filename;
                      Log Error [JsString "[SNAPSHOT] Snapshot failed:"; detail]],
                     Normal tt)).
Proof.
  intros Hheap Hlog Hraise mb filename run. subst mb filename run.
  destruct (gt (heapUsedMB_of stats) (inject_Z SAFE_HEAP_THRESHOLD_MB)) eqn:Hgt.
  - left. split; [reflexivity|]. now apply run_skipped.
  - right.
    destruct (v8_write w (snapshot_filename rootDir (clock w))) as [[]|v] eqn:Hw.
    + left. repeat split. now apply run_written.
    + right. split; [reflexivity|].
      destruct (message_readable v (Hraise v eq_refl)) as [detail Hd].
      exists v, detail. split; [reflexivity|].
      now apply run_failed with (v := v).
Qed.

Lemma heapUsedMB_of_used (s1 s2 : HeapStatistics) :
  used_heap_size s1 = used_heap_size s2 -> heapUsedMB_of s1 = heapUsedMB_of s2.
Proof. unfold heapUsedMB_of. now intros ->. Qed.

Lemma snapshot_filename_inj (a b : Z) :
  snapshot_filename rootDir a = snapshot_filename rootDir b -> a = b.
Proof.
  unfold snapshot_filename. intros H.
  apply JsFacts.append_inv_head in H.
  apply (JsFacts.append_inv_head "/heap-") in H.
  apply JsFacts.append_inv_tail in H.
  now apply JsFacts.number_to_string_inj.
Qed.

Lemma snapshot_filename_includes_clock (now : Z) :
  Js.includes (snapshot_filename rootDir now) (Js.number_to_string now) = true.
Proof.
  unfold snapshot_filename.
  do 2 apply JsFacts.includes_skip. apply JsFacts.includes_head.
Qed.

End Runs.

(** ** Properties of the plugin *)

Section Properties.

Variable rootDir : string.
Variable SNAPSHOT_INTERVAL_HOURS : Z.
Variable SAFE_HEAP_THRESHOLD_MB : Z.

(** C1.  When the heap statistics report a usage that, in megabytes, is
    strictly above [SAFE_HEAP_THRESHOLD_MB] (and the logger returns from its
    calls), [takeSnapshot] attempts no file write, calls [logError] exactly
    once, with a line that contains the usage as printed ([toFixed(1)]) and
    the threshold as printed, and returns normally. *)
Theorem takeSnapshot_above_threshold_skips (w : world) (stats : HeapStatistics) :
  v8_heap w = Normal stats ->
  console_returns w ->
  (inject_Z SAFE_HEAP_THRESHOLD_MB < heapUsedMB_of stats)%Q ->
  let t := calls (takeSnapshot rootDir SAFE_HEAP_THRESHOLD_MB) w in
  let line := skipped_line SAFE_HEAP_THRESHOLD_MB (heapUsedMB_of stats) in
  outcome (takeSnapshot rootDir SAFE_HEAP_THRESHOLD_MB) w = Normal tt
  /\ writes t = []
  /\ logged Error t = [[JsString line]]
  /\ Js.includes line (Js.toFixed (heapUsedMB_of stats) 1) = true
  /\ Js.includes line (Js.number_to_string SAFE_HEAP_THRESHOLD_MB) = true.
Proof.
  intros Hheap Hlog Habove. apply JsFacts.gt_true in Habove.
  unfold calls, outcome.
  rewrite (run_skipped rootDir SAFE_HEAP_THRESHOLD_MB w stats Hheap Hlog Habove).
  cbn [fst snd writes logged]. repeat split; unfold skipped_line.
  - apply JsFacts.includes_skip, JsFacts.includes_head.
  - do 3 apply JsFacts.includes_skip. apply JsFacts.includes_head.
Qed.

(** C3.  When the reported usage in megabytes is at most
    [SAFE_HEAP_THRESHOLD_MB], equality included (and the logger returns
    from its calls), [takeSnapshot] attempts exactly one file write, and the
    name of that file contains the clock value of the run as printed. *)
Theorem takeSnapshot_within_threshold_writes_once
  (w : world) (stats : HeapStatistics) :
  v8_heap w = Normal stats ->
  console_returns w ->
  (heapUsedMB_of stats <= inject_Z SAFE_HEAP_THRESHOLD_MB)%Q ->
  writes (calls (takeSnapshot rootDir SAFE_HEAP_THRESHOLD_MB) w)
    = [snapshot_filename rootDir (clock w)]
  /\ Js.includes (snapshot_filename rootDir (clock w))
                 (Js.number_to_string (clock w)) = true.
Proof.
  intros Hheap Hlog Hle. split.
  - now apply writes_within_threshold with (stats := stats).
  - apply snapshot_filename_includes_clock.
Qed.

(** C4.  When the serialization call raises an [Error] with message [m]
    (the heap being within the threshold and the logger returning from its
    calls), [takeSnapshot] ends on one [logError] call whose arguments are
    the text "[SNAPSHOT] Snapshot failed:" and [m]; the write was attempted
    once only, and the run returns normally. *)
Theorem takeSnapshot_serialization_error_logged
  (w : world) (stats : HeapStatistics) (m : string) :
  v8_heap w = Normal stats ->
  console_returns w ->
  (heapUsedMB_of stats <= inject_Z SAFE_HEAP_THRESHOLD_MB)%Q ->
  v8_write w (snapshot_filename rootDir (clock w)) = Throw (JsError m) ->
  let t := calls (takeSnapshot rootDir SAFE_HEAP_THRESHOLD_MB) w in
  outcome (takeSnapshot rootDir SAFE_HEAP_THRESHOLD_MB) w = Normal tt
  /\ writes t = [snapshot_filename rootDir (clock w)]
  /\ logged Error t = [[JsString "[SNAPSHOT] Snapshot failed:"; JsString m]]
  /\ last t DateNow = Log Error [JsString "[SNAPSHOT] Snapshot failed:"; JsString m]
  /\ Js.includes "[SNAPSHOT] Snapshot failed:" "Snapshot failed" = true.
Proof.
  intros Hheap Hlog Hle Hwrite. apply JsFacts.gt_false in Hle.
  unfold calls, outcome.
  rewrite (run_failed rootDir SAFE_HEAP_THRESHOLD_MB w stats (JsError m)
             (JsString m) Hheap Hlog Hle Hwrite eq_refl).
  repeat split.
Qed.

(** C5.  Every file write [takeSnapshot] attempts, in any world, goes to
    the path [rootDir ++ "/heap-" ++ now ++ ".heapsnapshot"], where [now] is
    the clock value of the run in decimal. *)
Theorem takeSnapshot_write_path (w : world) (filename : string) :
  In filename (writes (calls (takeSnapshot rootDir SAFE_HEAP_THRESHOLD_MB) w)) ->
  filename = rootDir ++ "/heap-" ++ Js.number_to_string (clock w) ++ ".heapsnapshot".
Proof.
  destruct (writes_shape rootDir SAFE_HEAP_THRESHOLD_MB w) as [-> | ->].
  - intros [].
  - intros [<- | []]. reflexivity.
Qed.

(** C6.  Two runs of [takeSnapshot] whose clocks differ, both within the
    threshold, attempt writes to two different file names. *)
Theorem takeSnapshot_filenames_distinct
  (w1 w2 : world) (stats1 stats2 : HeapStatistics) :
  v8_heap w1 = Normal stats1 ->
  v8_heap w2 = Normal stats2 ->
  console_returns w1 ->
  console_returns w2 ->
  (heapUsedMB_of stats1 <= inject_Z SAFE_HEAP_THRESHOLD_MB)%Q ->
  (heapUsedMB_of stats2 <= inject_Z SAFE_HEAP_THRESHOLD_MB)%Q ->
  clock w1 <> clock w2 ->
  exists f1 f2,
    writes (calls (takeSnapshot rootDir SAFE_HEAP_THRESHOLD_MB) w1) = [f1]
    /\ writes (calls (takeSnapshot rootDir SAFE_HEAP_THRESHOLD_MB) w2) = [f2]
    /\ f1 <> f2.
Proof.
  intros Hheap1 Hheap2 Hlog1 Hlog2 Hle1 Hle2 Hclock.
  pose proof (writes_within_threshold rootDir SAFE_HEAP_THRESHOLD_MB
                w1 stats1 Hheap1 Hlog1 Hle1) as E1.
  pose proof (writes_within_threshold rootDir SAFE_HEAP_THRESHOLD_MB
                w2 stats2 Hheap2 Hlog2 Hle2) as E2.
  exists (snapshot_filename rootDir (clock w1)),
         (snapshot_filename rootDir (clock w2)).
  repeat split; try assumption.
  intros E. now apply snapshot_filename_inj in E.
Qed.

(** C7.  The [SIGUSR2] listener, registered first when the module loads,
    calls [logInfo] with the signal message and then runs [takeSnapshot] in
    the same world: when that log call returns, the calls of the listener
    are the signal message followed by the calls of a direct
    [takeSnapshot], and the two end the same way. *)
Theorem on_SIGUSR2_logs_then_takes_snapshot (w : world) :
  console w Info [JsString "[SNAPSHOT] SIGUSR2 --> taking snapshot"] = Normal tt ->
  nth_error (module_load rootDir SNAPSHOT_INTERVAL_HOURS SAFE_HEAP_THRESHOLD_MB) 0
    = Some (ProcessOn "SIGUSR2" (on_SIGUSR2 rootDir SAFE_HEAP_THRESHOLD_MB))
  /\ calls (on_SIGUSR2 rootDir SAFE_HEAP_THRESHOLD_MB) w
     = Log Info [JsString "[SNAPSHOT] SIGUSR2 --> taking snapshot"]
       :: calls (takeSnapshot rootDir SAFE_HEAP_THRESHOLD_MB) w
  /\ outcome (on_SIGUSR2 rootDir SAFE_HEAP_THRESHOLD_MB) w
     = outcome (takeSnapshot rootDir SAFE_HEAP_THRESHOLD_MB) w.
Proof.
  intros Hlog. split; [reflexivity|].
  unfold calls, outcome, on_SIGUSR2, bind, logInfo, perform.
  rewrite Hlog.
  destruct (takeSnapshot rootDir SAFE_HEAP_THRESHOLD_MB w) as [t r].
  split; reflexivity.
Qed.

(** C8.  The usage report is registered with [setInterval] at a delay of
    3600000 ms, one hour, whatever [SNAPSHOT_INTERVAL_HOURS] is.  A firing
    in which [process.memoryUsage()] returns makes two calls: that read and
    one [logInfo] of the bytes used divided by 1024 twice, printed with
    [toFixed(1)].  It writes no file, reads neither the heap statistics nor
    the clock, and its calls contain no run of [takeSnapshot]. *)
Theorem usage_report_hourly_and_write_free (w : world) (u : MemoryUsage) :
  process_memory w = Normal u ->
  nth_error (module_load rootDir SNAPSHOT_INTERVAL_HOURS SAFE_HEAP_THRESHOLD_MB) 2
    = Some (SetInterval usage_report 3600000)
  /\ (3600000 = 1 * 60 * 60 * 1000)%Z
  /\ calls usage_report w
     = [ProcessMemoryUsage;
        Log Info [JsString
          ("[SNAPSHOT] Heap used: "
             ++ Js.toFixed (inject_Z (Z.of_N (heapUsed u)) / 1024 / 1024) 1
             ++ " MB")]]
  /\ writes (calls usage_report w) = []
  /\ reads_clock (calls usage_report w) = false
  /\ (forall w' before after,
        calls usage_report w
        <> (before ++ calls (takeSnapshot rootDir SAFE_HEAP_THRESHOLD_MB) w'
              ++ after)%list).
Proof.
  intros Hmem.
  assert (E : calls usage_report w
              = [ProcessMemoryUsage; Log Info [JsString (heap_used_line u)]]).
  { unfold_run. now rewrite Hmem. }
  split; [reflexivity|]. split; [reflexivity|].
  rewrite E. repeat split.
  intros w' before after H.
  destruct (run_starts_with_heap_read rootDir SAFE_HEAP_THRESHOLD_MB w')
    as [rest Hrest].
  rewrite Hrest in H.
  assert (Hin : In GetHeapStatistics
                  [ProcessMemoryUsage; Log Info [JsString (heap_used_line u)]]).
  { rewrite H. apply in_or_app. right. now left. }
  destruct Hin as [D | [D | []]]; discriminate D.
Qed.

(** C9.  Two runs of [takeSnapshot] that read the same [used_heap_size]
    (the logger returning from its calls in both) decide alike, whatever
    else differs between the two worlds: both attempt one file write, or
    both attempt none and log the same skip line. *)
Theorem takeSnapshot_decision_depends_on_usage_only
  (w1 w2 : world) (stats1 stats2 : HeapStatistics) :
  v8_heap w1 = Normal stats1 ->
  v8_heap w2 = Normal stats2 ->
  used_heap_size stats1 = used_heap_size stats2 ->
  console_returns w1 ->
  console_returns w2 ->
  let t1 := calls (takeSnapshot rootDir SAFE_HEAP_THRESHOLD_MB) w1 in
  let t2 := calls (takeSnapshot rootDir SAFE_HEAP_THRESHOLD_MB) w2 in
  (exists f1 f2, writes t1 = [f1] /\ writes t2 = [f2])
  \/ (writes t1 = [] /\ writes t2 = []
      /\ logged Error t1
         = [[JsString (skipped_line SAFE_HEAP_THRESHOLD_MB (heapUsedMB_of stats1))]]
      /\ logged Error t2 = logged Error t1).
Proof.
  intros Hheap1 Hheap2 Hused Hlog1 Hlog2 t1 t2. subst t1 t2.
  pose proof (heapUsedMB_of_used stats1 stats2 Hused) as Hmb.
  destruct (gt (heapUsedMB_of stats1) (inject_Z SAFE_HEAP_THRESHOLD_MB)) eqn:Hgt.
  - right. unfold calls.
    rewrite (run_skipped rootDir SAFE_HEAP_THRESHOLD_MB w1 stats1 Hheap1 Hlog1 Hgt).
    rewrite Hmb in Hgt.
    rewrite (run_skipped rootDir SAFE_HEAP_THRESHOLD_MB w2 stats2 Hheap2 Hlog2 Hgt).
    rewrite Hmb. repeat split.
  - left. apply JsFacts.gt_false in Hgt.
    exists (snapshot_filename rootDir (clock w1)),
           (snapshot_filename rootDir (clock w2)).
    split; eapply writes_within_threshold; eauto.
    now rewrite <- Hmb.
Qed.

(** C10.  In a run where the heap read and the logger return and the
    serialization raises nothing nullish: after the heap read the usage
    line is the first call, it is logged once, and then exactly one of the
    skip line, the written line and the failed line is logged, decided by
    the threshold test and by how the serialization ends.  On the skip path
    the run consists of three calls: the clock is not read and nothing is
    written. *)
Theorem takeSnapshot_usage_line_then_one_result
  (w : world) (stats : HeapStatistics) :
  v8_heap w = Normal stats ->
  console_returns w ->
  (forall v, v8_write w (snapshot_filename rootDir (clock w)) = Throw v ->
             nullish v = false) ->
  let mb := heapUsedMB_of stats in
  let t := calls (takeSnapshot rootDir SAFE_HEAP_THRESHOLD_MB) w in
  let result :=
    if gt mb (inject_Z SAFE_HEAP_THRESHOLD_MB) then SkippedLine
    else match v8_write w (snapshot_filename rootDir (clock w)) with
         | Normal _ => WrittenLine
         | Throw _ => FailedLine
         end in
  (exists rest,
     t = GetHeapStatistics :: Log Info [JsString (usage_line mb)] :: rest)
  /\ filter is_usage_line t = [Log Info [JsString (usage_line mb)]]
  /\ result_lines t = [result]
  /\ (result = SkippedLine ->
      reads_clock t = false /\ writes t = [] /\ List.length t = 3%nat).
Proof.
  intros Hheap Hlog Hraise mb t result. subst mb t result. unfold calls.
  destruct (run_cases rootDir SAFE_HEAP_THRESHOLD_MB w stats Hheap Hlog Hraise)
    as [(Hgt & ->) | [(Hgt & Hw & ->) | (Hgt & v & detail & Hw & ->)]];
    rewrite Hgt, ?Hw; cbn [fst].
  all: split; [now eexists|];
    unfold usage_line, skipped_line, written_line;
    repeat split; try reflexivity; discriminate.
Qed.

(** C2, as the code has it.  [takeSnapshot] returns normally, its last
    call being a logger call, when the heap read returns, the logger
    returns from its calls, and the serialization either returns or raises
    a value other than [null] and [undefined]. *)
Theorem takeSnapshot_returns_normally (w : world) (stats : HeapStatistics) :
  v8_heap w = Normal stats ->
  console_returns w ->
  (forall v, v8_write w (snapshot_filename rootDir (clock w)) = Throw v ->
             nullish v = false) ->
  outcome (takeSnapshot rootDir SAFE_HEAP_THRESHOLD_MB) w = Normal tt
  /\ exists before lvl args,
       calls (takeSnapshot rootDir SAFE_HEAP_THRESHOLD_MB) w
       = (before ++ [Log lvl args])%list.
Proof.
  intros Hheap Hlog Hraise. unfold calls, outcome.
  destruct (run_cases rootDir SAFE_HEAP_THRESHOLD_MB w stats Hheap Hlog Hraise)
    as [(_ & ->) | [(_ & _ & ->) | (_ & v & detail & _ & ->)]];
    (split; [reflexivity|]); cbn [fst].
  - now exists [GetHeapStatistics; Log Info [JsString (usage_line (heapUsedMB_of stats))]],
               Error, [JsString (skipped_line SAFE_HEAP_THRESHOLD_MB (heapUsedMB_of stats))].
  - eexists [_; _; _; _], Info, _. reflexivity.
  - eexists [_; _; _; _], Error, _. reflexivity.
Qed.

End Properties.

(** ** The scenarios of the specification, run on the source's constants *)

Example scenario_100MB :
  takeSnapshot "/app" source_SAFE_HEAP_THRESHOLD_MB world_low
  = ([GetHeapStatistics;
      Log Info [JsString "[SNAPSHOT] Current heap used: 100.0 MB"];
      DateNow;
      WriteHeapSnapshot "/app/heap-1700000000000.heapsnapshot";
      Log Info [JsString
        "[SNAPSHOT] Snapshot written: /app/heap-1700000000000.heapsnapshot (used 100.0 MB)"]],
     Normal tt).
Proof. reflexivity. Qed.

Example scenario_300MB :
  takeSnapshot "/app" source_SAFE_HEAP_THRESHOLD_MB world_high
  = ([GetHeapStatistics;
      Log Info [JsString "[SNAPSHOT] Current heap used: 300.0 MB"];
      Log Error [JsString "Snapshot skipped: heap 300.0 MB > safe 250 MB"]],
     Normal tt).
Proof. reflexivity. Qed.

Example scenario_ENOSPC :
  takeSnapshot "/app" source_SAFE_HEAP_THRESHOLD_MB world_disk_full
  = ([GetHeapStatistics;
      Log Info [JsString "[SNAPSHOT] Current heap used: 100.0 MB"];
      DateNow;
      WriteHeapSnapshot "/app/heap-42.heapsnapshot";
      Log Error [JsString "[SNAPSHOT] Snapshot failed:"; JsString "ENOSPC"]],
     Normal tt).
Proof. reflexivity. Qed.

Example scenario_one_byte_over :
  takeSnapshot "/app" source_SAFE_HEAP_THRESHOLD_MB
    (sample_world (250 * MiB + 1) 1700000000000 (Normal tt))
  = ([GetHeapStatistics;
      Log Info [JsString "[SNAPSHOT] Current heap used: 250.0 MB"];
      Log Error [JsString "Snapshot skipped: heap 250.0 MB > safe 250 MB"]],
     Normal tt).
Proof. reflexivity. Qed.

(** ** Instances *)

Lemma takeSnapshot_above_threshold_skips_witness :
  (inject_Z 250 < heapUsedMB_of {| used_heap_size := 300 * MiB |})%Q
  /\ outcome (takeSnapshot "/app" 250) world_high = Normal tt
  /\ writes (calls (takeSnapshot "/app" 250) world_high) = []
  /\ logged Error (calls (takeSnapshot "/app" 250) world_high)
     = [[JsString "Snapshot skipped: heap 300.0 MB > safe 250 MB"]]
  /\ Js.includes "Snapshot skipped: heap 300.0 MB > safe 250 MB" "300.0" = true
  /\ Js.includes "Snapshot skipped: heap 300.0 MB > safe 250 MB" "250" = true.
Proof.
  assert (Habove : (inject_Z 250 < heapUsedMB_of {| used_heap_size := 300 * MiB |})%Q)
    by reflexivity.
  split; [exact Habove|].
  exact (takeSnapshot_above_threshold_skips "/app" 250 world_high
           {| used_heap_size := 300 * MiB |} eq_refl
           (fun lvl args => eq_refl) Habove).
Defined.

Lemma takeSnapshot_within_threshold_writes_once_witness :
  (heapUsedMB_of {| used_heap_size := 250 * MiB |} <= inject_Z 250)%Q
  /\ writes (calls (takeSnapshot "/app" 250) world_at_threshold)
     = ["/app/heap-1700000000001.heapsnapshot"]
  /\ Js.includes "/app/heap-1700000000001.heapsnapshot" "1700000000001" = true.
Proof.
  assert (Hle : (heapUsedMB_of {| used_heap_size := 250 * MiB |} <= inject_Z 250)%Q)
    by (unfold Qle; simpl; lia).
  split; [exact Hle|].
  exact (takeSnapshot_within_threshold_writes_once "/app" 250 world_at_threshold
           {| used_heap_size := 250 * MiB |} eq_refl
           (fun lvl args => eq_refl) Hle).
Defined.

Lemma takeSnapshot_serialization_error_logged_witness :
  v8_write world_disk_full (snapshot_filename "/app" (clock world_disk_full))
    = Throw (JsError "ENOSPC")
  /\ outcome (takeSnapshot "/app" 250) world_disk_full = Normal tt
  /\ writes (calls (takeSnapshot "/app" 250) world_disk_full)
     = ["/app/heap-42.heapsnapshot"]
  /\ logged Error (calls (takeSnapshot "/app" 250) world_disk_full)
     = [[JsString "[SNAPSHOT] Snapshot failed:"; JsString "ENOSPC"]].
Proof.
  assert (Hle : (heapUsedMB_of {| used_heap_size := 100 * MiB |} <= inject_Z 250)%Q)
    by (unfold Qle; simpl; lia).
  split; [reflexivity|].
  destruct (takeSnapshot_serialization_error_logged "/app" 250 world_disk_full
              {| used_heap_size := 100 * MiB |} "ENOSPC" eq_refl
              (fun lvl args => eq_refl) Hle eq_refl)
    as (Hout & Hwrites & Hlogged & _).
  split; [exact Hout|]. split; [exact Hwrites | exact Hlogged].
Defined.

Lemma takeSnapshot_write_path_witness :
  In "/app/heap-1700000000000.heapsnapshot"
     (writes (calls (takeSnapshot "/app" 250) world_low))
  /\ "/app/heap-1700000000000.heapsnapshot"
     = "/app" ++ "/heap-" ++ Js.number_to_string (clock world_low) ++ ".heapsnapshot".
Proof.
  assert (Hin : In "/app/heap-1700000000000.heapsnapshot"
                   (writes (calls (takeSnapshot "/app" 250) world_low)))
    by (left; reflexivity).
  split; [exact Hin|].
  exact (takeSnapshot_write_path "/app" 250 world_low _ Hin).
Defined.

Lemma takeSnapshot_filenames_distinct_witness :
  clock world_low <> clock world_at_threshold
  /\ exists f1 f2,
       writes (calls (takeSnapshot "/app" 250) world_low) = [f1]
       /\ writes (calls (takeSnapshot "/app" 250) world_at_threshold) = [f2]
       /\ f1 <> f2.
Proof.
  assert (Hclock : clock world_low <> clock world_at_threshold)
    by (simpl; lia).
  split; [exact Hclock|].
  apply (takeSnapshot_filenames_distinct "/app" 250 world_low world_at_threshold
           {| used_heap_size := 100 * MiB |} {| used_heap_size := 250 * MiB |}
           eq_refl eq_refl
           (fun lvl args => eq_refl) (fun lvl args => eq_refl)).
  - unfold Qle; simpl; lia.
  - unfold Qle; simpl; lia.
  - exact Hclock.
Defined.

Lemma on_SIGUSR2_logs_then_takes_snapshot_witness :
  console world_low Info [JsString "[SNAPSHOT] SIGUSR2 --> taking snapshot"]
    = Normal tt
  /\ calls (on_SIGUSR2 "/app" 250) world_low
     = [Log Info [JsString "[SNAPSHOT] SIGUSR2 --> taking snapshot"];
        GetHeapStatistics;
        Log Info [JsString "[SNAPSHOT] Current heap used: 100.0 MB"];
        DateNow;
        WriteHeapSnapshot "/app/heap-1700000000000.heapsnapshot";
        Log Info [JsString
          "[SNAPSHOT] Snapshot written: /app/heap-1700000000000.heapsnapshot (used 100.0 MB)"]]
  /\ outcome (on_SIGUSR2 "/app" 250) world_low = Normal tt.
Proof.
  split; [reflexivity|].
  destruct (on_SIGUSR2_logs_then_takes_snapshot "/app"
              source_SNAPSHOT_INTERVAL_HOURS 250 world_low eq_refl)
    as (_ & Hcalls & Hout).
  split; [exact Hcalls | exact Hout].
Defined.

Lemma usage_report_hourly_and_write_free_witness :
  process_memory world_high = Normal {| heapUsed := 300 * MiB |}
  /\ nth_error (module_load "/app" source_SNAPSHOT_INTERVAL_HOURS
                            source_SAFE_HEAP_THRESHOLD_MB) 2
     = Some (SetInterval usage_report 3600000)
  /\ calls usage_report world_high
     = [ProcessMemoryUsage; Log Info [JsString "[SNAPSHOT] Heap used: 300.0 MB"]]
  /\ writes (calls usage_report world_high) = [].
Proof.
  split; [reflexivity|].
  destruct (usage_report_hourly_and_write_free "/app"
              source_SNAPSHOT_INTERVAL_HOURS source_SAFE_HEAP_THRESHOLD_MB
              world_high {| heapUsed := 300 * MiB |} eq_refl)
    as (Hreg & _ & Hcalls & Hwrites & _).
  split; [exact Hreg|]. split; [exact Hcalls | exact Hwrites].
Defined.

Lemma takeSnapshot_decision_depends_on_usage_only_witness :
  used_heap_size {| used_heap_size := 100 * MiB |}
    = used_heap_size {| used_heap_size := 100 * MiB |}
  /\ clock world_low <> clock world_disk_full
  /\ ((exists f1 f2,
         writes (calls (takeSnapshot "/app" 250) world_low) = [f1]
         /\ writes (calls (takeSnapshot "/app" 250) world_disk_full) = [f2])
      \/ (writes (calls (takeSnapshot "/app" 250) world_low) = []
          /\ writes (calls (takeSnapshot "/app" 250) world_disk_full) = []
          /\ logged Error (calls (takeSnapshot "/app" 250) world_low)
             = [[JsString (skipped_line 250
                   (heapUsedMB_of {| used_heap_size := 100 * MiB |}))]]
          /\ logged Error (calls (takeSnapshot "/app" 250) world_disk_full)
             = logged Error (calls (takeSnapshot "/app" 250) world_low))).
Proof.
  split; [reflexivity|]. split; [simpl; lia|].
  exact (takeSnapshot_decision_depends_on_usage_only "/app" 250
           world_low world_disk_full
           {| used_heap_size := 100 * MiB |} {| used_heap_size := 100 * MiB |}
           eq_refl eq_refl eq_refl
           (fun lvl args => eq_refl) (fun lvl args => eq_refl)).
Defined.

Lemma takeSnapshot_usage_line_then_one_result_witness :
  filter is_usage_line (calls (takeSnapshot "/app" 250) world_high)
    = [Log Info [JsString "[SNAPSHOT] Current heap used: 300.0 MB"]]
  /\ result_lines (calls (takeSnapshot "/app" 250) world_high) = [SkippedLine]
  /\ reads_clock (calls (takeSnapshot "/app" 250) world_high) = false
  /\ writes (calls (takeSnapshot "/app" 250) world_high) = [].
Proof.
  assert (Hraise : forall v,
             v8_write world_high (snapshot_filename "/app" (clock world_high))
               = Throw v -> nullish v = false)
    by (intros v H; discriminate H).
  destruct (takeSnapshot_usage_line_then_one_result "/app" 250 world_high
              {| used_heap_size := 300 * MiB |} eq_refl
              (fun lvl args => eq_refl) Hraise)
    as (_ & Husage & Hresult & Hskip).
  destruct (Hskip eq_refl) as (Hclock & Hwrites & _).
  split; [exact Husage|]. split; [exact Hresult|].
  split; [exact Hclock | exact Hwrites].
Defined.

Lemma takeSnapshot_returns_normally_witness :
  v8_write world_disk_full (snapshot_filename "/app" (clock world_disk_full))
    = Throw (JsError "ENOSPC")
  /\ nullish (JsError "ENOSPC") = false
  /\ outcome (takeSnapshot "/app" 250) world_disk_full = Normal tt
  /\ exists before lvl args,
       calls (takeSnapshot "/app" 250) world_disk_full
       = (before ++ [Log lvl args])%list.
Proof.
  assert (Hraise : forall v,
             v8_write world_disk_full
               (snapshot_filename "/app" (clock world_disk_full)) = Throw v ->
             nullish v = false)
    by (intros v H; injection H as <-; reflexivity).
  split; [reflexivity|]. split; [reflexivity|].
  exact (takeSnapshot_returns_normally "/app" 250 world_disk_full
           {| used_heap_size := 100 * MiB |} eq_refl
           (fun lvl args => eq_refl) Hraise).
Defined.

(** C2 fails as stated: a heap read that raises, a logger that raises, and
    a serialization that raises [null] each make [takeSnapshot] raise; in
    the last case the run does not end on a logger call either. *)
Lemma takeSnapshot_raises_counterexample :
  outcome (takeSnapshot "/app" source_SAFE_HEAP_THRESHOLD_MB) world_raises_null
    = Throw (JsError "Cannot read properties of null (reading 'message')")
  /\ calls (takeSnapshot "/app" source_SAFE_HEAP_THRESHOLD_MB) world_raises_null
     = [GetHeapStatistics;
        Log Info [JsString "[SNAPSHOT] Current heap used: 100.0 MB"];
        DateNow;
        WriteHeapSnapshot "/app/heap-1700000000000.heapsnapshot"]
  /\ outcome (takeSnapshot "/app" source_SAFE_HEAP_THRESHOLD_MB) world_heap_read_fails
     = Throw (JsError "heap statistics unavailable")
  /\ outcome (takeSnapshot "/app" source_SAFE_HEAP_THRESHOLD_MB) world_logger_fails
     = Throw (JsError "EPIPE").
Proof. repeat split. Qed.

(** ** Further properties of the file *)

Module MoreFacts.

Lemma toFixed_proper (x y : Q) (f : nat) :
  (x == y)%Q -> Js.toFixed x f = Js.toFixed y f.
Proof.
  intros E. unfold Js.toFixed. cbv zeta.
  assert (Hsign : Qle_bool 0 x = Qle_bool 0 y) by now rewrite E.
  rewrite Hsign.
  assert (Hpos : Js.nearest x f = Js.nearest y f)
    by (unfold Js.nearest; now rewrite E).
  assert (Hneg : Js.nearest (- x) f = Js.nearest (- y) f)
    by (unfold Js.nearest; now rewrite E).
  destruct (negb (Qle_bool 0 y)); [now rewrite Hneg | now rewrite Hpos].
Qed.

Lemma megabytes_two_ways (n : N) :
  (inject_Z (Z.of_N n) / 1024 / 1024 == inject_Z (Z.of_N n) / (1024 * 1024))%Q.
Proof. field. Qed.

End MoreFacts.

Section MoreProperties.

Variable rootDir : string.
Variable SNAPSHOT_INTERVAL_HOURS : Z.
Variable SAFE_HEAP_THRESHOLD_MB : Z.

(** X1.  The periodic check is the second registration, a [setInterval]
    whose delay is [SNAPSHOT_INTERVAL_HOURS] hours in milliseconds.  When
    its log call returns, its calls are the periodic-check message followed
    by the calls of [takeSnapshot] in the same world, and the two end the
    same way. *)
Theorem periodic_check_logs_then_takes_snapshot (w : world) :
  console w Info [JsString "[SNAPSHOT] Periodic snapshot check"] = Normal tt ->
  nth_error (module_load rootDir SNAPSHOT_INTERVAL_HOURS SAFE_HEAP_THRESHOLD_MB) 1
    = Some (SetInterval (periodic_check rootDir SAFE_HEAP_THRESHOLD_MB)
                        (SNAPSHOT_INTERVAL_HOURS * 3600000))
  /\ calls (periodic_check rootDir SAFE_HEAP_THRESHOLD_MB) w
     = Log Info [JsString "[SNAPSHOT] Periodic snapshot check"]
       :: calls (takeSnapshot rootDir SAFE_HEAP_THRESHOLD_MB) w
  /\ outcome (periodic_check rootDir SAFE_HEAP_THRESHOLD_MB) w
     = outcome (takeSnapshot rootDir SAFE_HEAP_THRESHOLD_MB) w.
Proof.
  intros Hlog. split.
  - unfold module_load. cbn [nth_error]. do 2 f_equal. lia.
  - unfold calls, outcome, periodic_check, bind, logInfo, perform.
    rewrite Hlog.
    destruct (takeSnapshot rootDir SAFE_HEAP_THRESHOLD_MB w) as [t r].
    split; reflexivity.
Qed.

(** X2.  When the log call of the [SIGUSR2] listener raises, the listener
    raises the same value and [takeSnapshot] is not started: that log call
    is the only call made. *)
Theorem on_SIGUSR2_log_failure_propagates (w : world) (v : value) :
  console w Info [JsString "[SNAPSHOT] SIGUSR2 --> taking snapshot"] = Throw v ->
  on_SIGUSR2 rootDir SAFE_HEAP_THRESHOLD_MB w
  = ([Log Info [JsString "[SNAPSHOT] SIGUSR2 --> taking snapshot"]], Throw v).
Proof.
  intros Hlog. unfold on_SIGUSR2, bind, logInfo, perform.
  now rewrite Hlog.
Qed.

(** X3.  When the log call of the periodic check raises, the callback
    raises the same value and [takeSnapshot] is not started. *)
Theorem periodic_check_log_failure_propagates (w : world) (v : value) :
  console w Info [JsString "[SNAPSHOT] Periodic snapshot check"] = Throw v ->
  periodic_check rootDir SAFE_HEAP_THRESHOLD_MB w
  = ([Log Info [JsString "[SNAPSHOT] Periodic snapshot check"]], Throw v).
Proof.
  intros Hlog. unfold periodic_check, bind, logInfo, perform.
  now rewrite Hlog.
Qed.

(** X4.  When [v8.getHeapStatistics()] raises, [takeSnapshot] raises the
    same value; the heap read is its only call, so nothing is logged and
    nothing is written. *)
Theorem takeSnapshot_heap_read_failure_propagates (w : world) (v : value) :
  v8_heap w = Throw v ->
  takeSnapshot rootDir SAFE_HEAP_THRESHOLD_MB w = ([GetHeapStatistics], Throw v).
Proof.
  intros Hheap. unfold_run. now rewrite Hheap.
Qed.

(** X5.  When the log call of the usage line raises, [takeSnapshot] raises
    the same value before the threshold is tested: whatever the usage, the
    clock is not read and no write is attempted. *)
Theorem takeSnapshot_usage_log_failure_propagates
  (w : world) (stats : HeapStatistics) (v : value) :
  v8_heap w = Normal stats ->
  console w Info [JsString (usage_line (heapUsedMB_of stats))] = Throw v ->
  takeSnapshot rootDir SAFE_HEAP_THRESHOLD_MB w
  = ([GetHeapStatistics; Log Info [JsString (usage_line (heapUsedMB_of stats))]],
     Throw v).
Proof.
  intros Hheap Hlog. unfold_run. now rewrite Hheap, Hlog.
Qed.

(** X6.  The [try] block covers the confirmation log as well.  When the
    write returns and the log call of the written line raises an [Error]
    with message [m], the [catch] block reports a failed snapshot with [m]
    and [takeSnapshot] returns normally, although the file was written. *)
Theorem takeSnapshot_success_log_failure_is_caught
  (w : world) (stats : HeapStatistics) (m : string) :
  v8_heap w = Normal stats ->
  (heapUsedMB_of stats <= inject_Z SAFE_HEAP_THRESHOLD_MB)%Q ->
  console w Info [JsString (usage_line (heapUsedMB_of stats))] = Normal tt ->
  v8_write w (snapshot_filename rootDir (clock w)) = Normal tt ->
  console w Info [JsString (written_line (snapshot_filename rootDir (clock w))
                                         (heapUsedMB_of stats))]
    = Throw (JsError m) ->
  console w Error [JsString "[SNAPSHOT] Snapshot failed:"; JsString m] = Normal tt ->
  takeSnapshot rootDir SAFE_HEAP_THRESHOLD_MB w
  = ([GetHeapStatistics;
      Log Info [JsString (usage_line (heapUsedMB_of stats))];
      DateNow;
      WriteHeapSnapshot (snapshot_filename rootDir (clock w));
      Log Info [JsString (written_line (snapshot_filename rootDir (clock w))
                                       (heapUsedMB_of stats))];
      Log Error [JsString "[SNAPSHOT] Snapshot failed:"; JsString m]],
     Normal tt).
Proof.
  intros Hheap Hle Husage Hwrite Hwritten Hfailed.
  apply JsFacts.gt_false in Hle.
  unfold_run. rewrite Hheap, Husage, Hle, Hwrite, Hwritten. cbn [message_of].
  now rewrite Hfailed.
Qed.

(** X7.  When the serialization raises a value that is neither nullish nor
    an [Error] (a string, a number, a boolean, an object without
    [message]), the failure line is logged with [undefined] as its detail:
    the raised value itself does not reach the log.  The run returns
    normally. *)
Theorem takeSnapshot_non_error_raise_logs_undefined
  (w : world) (stats : HeapStatistics) (v : value) :
  v8_heap w = Normal stats ->
  console_returns w ->
  (heapUsedMB_of stats <= inject_Z SAFE_HEAP_THRESHOLD_MB)%Q ->
  v8_write w (snapshot_filename rootDir (clock w)) = Throw v ->
  nullish v = false ->
  (forall m, v <> JsError m) ->
  outcome (takeSnapshot rootDir SAFE_HEAP_THRESHOLD_MB) w = Normal tt
  /\ logged Error (calls (takeSnapshot rootDir SAFE_HEAP_THRESHOLD_MB) w)
     = [[JsString "[SNAPSHOT] Snapshot failed:"; JsUndefined]].
Proof.
  intros Hheap Hlog Hle Hwrite Hnull Hnoterr. apply JsFacts.gt_false in Hle.
  assert (Hmsg : message_of v = Normal JsUndefined).
  { destruct v; try reflexivity; try discriminate Hnull.
    now elim (Hnoterr message). }
  unfold calls, outcome.
  rewrite (run_failed rootDir SAFE_HEAP_THRESHOLD_MB w stats v JsUndefined
             Hheap Hlog Hle Hwrite Hmsg).
  split; reflexivity.
Qed.

(** X8.  When the serialization raises [null] or [undefined], reading
    [err.message] in the [catch] block raises, and that [TypeError] leaves
    [takeSnapshot]: the write is the last call and no error line is
    logged. *)
Theorem takeSnapshot_nullish_raise_escapes
  (w : world) (stats : HeapStatistics) (v : value) :
  v8_heap w = Normal stats ->
  console_returns w ->
  (heapUsedMB_of stats <= inject_Z SAFE_HEAP_THRESHOLD_MB)%Q ->
  v8_write w (snapshot_filename rootDir (clock w)) = Throw v ->
  nullish v = true ->
  (exists text,
     outcome (takeSnapshot rootDir SAFE_HEAP_THRESHOLD_MB) w = Throw (JsError text))
  /\ calls (takeSnapshot rootDir SAFE_HEAP_THRESHOLD_MB) w
     = [GetHeapStatistics;
        Log Info [JsString (usage_line (heapUsedMB_of stats))];
        DateNow;
        WriteHeapSnapshot (snapshot_filename rootDir (clock w))]
  /\ logged Error (calls (takeSnapshot rootDir SAFE_HEAP_THRESHOLD_MB) w) = [].
Proof.
  intros Hheap Hlog Hle Hwrite Hnull. apply JsFacts.gt_false in Hle.
  unfold_run. rewrite Hheap, Hlog, Hle, Hwrite.
  destruct v; try discriminate Hnull; cbn [message_of fst snd logged];
    (split; [now eexists | split; reflexivity]).
Qed.

(** X9.  In bytes: with the heap read and the logger returning,
    [takeSnapshot] attempts no write exactly when [used_heap_size] exceeds
    [SAFE_HEAP_THRESHOLD_MB * 1048576]; one byte decides. *)
Theorem takeSnapshot_skips_iff_bytes_exceed (w : world) (stats : HeapStatistics) :
  v8_heap w = Normal stats ->
  console_returns w ->
  writes (calls (takeSnapshot rootDir SAFE_HEAP_THRESHOLD_MB) w) = []
  <-> (SAFE_HEAP_THRESHOLD_MB * 1048576 < Z.of_N (used_heap_size stats))%Z.
Proof.
  intros Hheap Hlog.
  pose proof (JsFacts.threshold_test_in_bytes stats SAFE_HEAP_THRESHOLD_MB) as Hbytes.
  destruct (gt (heapUsedMB_of stats) (inject_Z SAFE_HEAP_THRESHOLD_MB)) eqn:Hgt.
  - symmetry in Hbytes. apply Z.ltb_lt in Hbytes.
    unfold calls.
    rewrite (run_skipped rootDir SAFE_HEAP_THRESHOLD_MB w stats Hheap Hlog Hgt).
    split; [intros _; exact Hbytes | reflexivity].
  - symmetry in Hbytes. apply Z.ltb_ge in Hbytes.
    apply JsFacts.gt_false in Hgt.
    rewrite (writes_within_threshold rootDir SAFE_HEAP_THRESHOLD_MB w stats
               Hheap Hlog Hgt).
    split; [discriminate | lia].
Qed.

(** X10.  In every world, failing collaborators included, a run of
    [takeSnapshot] starts with the heap read and reads the heap statistics
    once only; it reads the clock at most once, attempts at most one write,
    makes at most three logger calls, none of them [logWarn], and never
    calls [process.memoryUsage]. *)
Theorem takeSnapshot_call_bounds (w : world) :
  let t := calls (takeSnapshot rootDir SAFE_HEAP_THRESHOLD_MB) w in
  hd_error t = Some GetHeapStatistics
  /\ count_calls is_heap_read t = 1%nat
  /\ (count_calls is_clock_read t <= 1)%nat
  /\ (count_calls is_write t <= 1)%nat
  /\ (count_calls is_log t <= 3)%nat
  /\ logged Warn t = []
  /\ count_calls is_memory_read t = 0%nat.
Proof.
  unfold_run. unfold count_calls.
  destruct (v8_heap w) as [stats|v]; [|cbn; repeat split; lia].
  destruct (console w Info [JsString (usage_line (heapUsedMB_of stats))])
    as [[]|v]; [|cbn; repeat split; lia].
  destruct (gt (heapUsedMB_of stats) (inject_Z SAFE_HEAP_THRESHOLD_MB)).
  - destruct (console w Error _); cbn; repeat split; lia.
  - destruct (v8_write w (snapshot_filename rootDir (clock w))) as [[]|v].
    + destruct (console w Info _) as [[]|v]; [cbn; repeat split; lia|].
      destruct (message_of v); [|cbn; repeat split; lia].
      destruct (console w Error _); cbn; repeat split; lia.
    + destruct (message_of v); [|cbn; repeat split; lia].
      destruct (console w Error _); cbn; repeat split; lia.
Qed.

(** X11.  On success (usage within the threshold, the serialization and
    the logger returning) no error line is logged, and the second and last
    informational line contains the name of the file written and the usage
    as printed. *)
Theorem takeSnapshot_success_line_names_file (w : world) (stats : HeapStatistics) :
  v8_heap w = Normal stats ->
  console_returns w ->
  (heapUsedMB_of stats <= inject_Z SAFE_HEAP_THRESHOLD_MB)%Q ->
  v8_write w (snapshot_filename rootDir (clock w)) = Normal tt ->
  let t := calls (takeSnapshot rootDir SAFE_HEAP_THRESHOLD_MB) w in
  let line := written_line (snapshot_filename rootDir (clock w))
                           (heapUsedMB_of stats) in
  outcome (takeSnapshot rootDir SAFE_HEAP_THRESHOLD_MB) w = Normal tt
  /\ logged Error t = []
  /\ logged Info t
     = [[JsString (usage_line (heapUsedMB_of stats))]; [JsString line]]
  /\ writes t = [snapshot_filename rootDir (clock w)]
  /\ Js.includes line (snapshot_filename rootDir (clock w)) = true
  /\ Js.includes line (Js.toFixed (heapUsedMB_of stats) 1) = true.
Proof.
  intros Hheap Hlog Hle Hwrite. apply JsFacts.gt_false in Hle.
  unfold calls, outcome.
  rewrite (run_written rootDir SAFE_HEAP_THRESHOLD_MB w stats Hheap Hlog Hle Hwrite).
  cbn [fst snd logged writes]. repeat split; unfold written_line.
  - apply JsFacts.includes_skip, JsFacts.includes_head.
  - do 3 apply JsFacts.includes_skip. apply JsFacts.includes_head.
Qed.

(** X12.  When [process.memoryUsage()] raises, the usage report raises the
    same value and logs nothing. *)
Theorem usage_report_memory_read_failure_propagates (w : world) (v : value) :
  process_memory w = Throw v ->
  usage_report w = ([ProcessMemoryUsage], Throw v).
Proof.
  intros Hmem. unfold_run. now rewrite Hmem.
Qed.

(** X13.  The usage report divides by 1024 twice and [takeSnapshot] divides
    by 1024 * 1024: for the same byte count the two lines print the same
    figure. *)
Theorem usage_report_and_snapshot_print_same_figure (bytes : N) :
  heap_used_line {| heapUsed := bytes |}
  = "[SNAPSHOT] Heap used: "
      ++ Js.toFixed (heapUsedMB_of {| used_heap_size := bytes |}) 1 ++ " MB"
  /\ usage_line (heapUsedMB_of {| used_heap_size := bytes |})
     = "[SNAPSHOT] Current heap used: "
         ++ Js.toFixed (inject_Z (Z.of_N bytes) / 1024 / 1024) 1 ++ " MB".
Proof.
  unfold heap_used_line, usage_line, heapUsedMB_of.
  cbn [heapUsed used_heap_size].
  rewrite (MoreFacts.toFixed_proper _ _ 1 (MoreFacts.megabytes_two_ways bytes)).
  split; reflexivity.
Qed.


End MoreProperties.

(** ** Instances of the further properties *)

Lemma periodic_check_logs_then_takes_snapshot_witness :
  console world_low Info [JsString "[SNAPSHOT] Periodic snapshot check"] = Normal tt
  /\ nth_error (module_load "/app" source_SNAPSHOT_INTERVAL_HOURS
                            source_SAFE_HEAP_THRESHOLD_MB) 1
     = Some (SetInterval (periodic_check "/app" source_SAFE_HEAP_THRESHOLD_MB)
                         21600000)
  /\ calls (periodic_check "/app" source_SAFE_HEAP_THRESHOLD_MB) world_low
     = [Log Info [JsString "[SNAPSHOT] Periodic snapshot check"];
        GetHeapStatistics;
        Log Info [JsString "[SNAPSHOT] Current heap used: 100.0 MB"];
        DateNow;
        WriteHeapSnapshot "/app/heap-1700000000000.heapsnapshot";
        Log Info [JsString
          "[SNAPSHOT] Snapshot written: /app/heap-1700000000000.heapsnapshot (used 100.0 MB)"]].
Proof.
  split; [reflexivity|].
  destruct (periodic_check_logs_then_takes_snapshot "/app"
              source_SNAPSHOT_INTERVAL_HOURS source_SAFE_HEAP_THRESHOLD_MB
              world_low eq_refl)
    as (Hreg & Hcalls & _).
  split; [exact Hreg | exact Hcalls].
Defined.

Lemma on_SIGUSR2_log_failure_propagates_witness :
  console world_logger_fails Info
    [JsString "[SNAPSHOT] SIGUSR2 --> taking snapshot"] = Throw (JsError "EPIPE")
  /\ on_SIGUSR2 "/app" 250 world_logger_fails
     = ([Log Info [JsString "[SNAPSHOT] SIGUSR2 --> taking snapshot"]],
        Throw (JsError "EPIPE")).
Proof.
  split; [reflexivity|].
  exact (on_SIGUSR2_log_failure_propagates "/app" 250 world_logger_fails
           (JsError "EPIPE") eq_refl).
Defined.

Lemma periodic_check_log_failure_propagates_witness :
  console world_logger_fails Info
    [JsString "[SNAPSHOT] Periodic snapshot check"] = Throw (JsError "EPIPE")
  /\ periodic_check "/app" 250 world_logger_fails
     = ([Log Info [JsString "[SNAPSHOT] Periodic snapshot check"]],
        Throw (JsError "EPIPE")).
Proof.
  split; [reflexivity|].
  exact (periodic_check_log_failure_propagates "/app" 250 world_logger_fails
           (JsError "EPIPE") eq_refl).
Defined.

Lemma takeSnapshot_heap_read_failure_propagates_witness :
  v8_heap world_heap_read_fails = Throw (JsError "heap statistics unavailable")
  /\ takeSnapshot "/app" 250 world_heap_read_fails
     = ([GetHeapStatistics], Throw (JsError "heap statistics unavailable")).
Proof.
  split; [reflexivity|].
  exact (takeSnapshot_heap_read_failure_propagates "/app" 250
           world_heap_read_fails _ eq_refl).
Defined.

Lemma takeSnapshot_usage_log_failure_propagates_witness :
  v8_heap world_logger_fails = Normal {| used_heap_size := 100 * MiB |}
  /\ takeSnapshot "/app" 250 world_logger_fails
     = ([GetHeapStatistics;
         Log Info [JsString "[SNAPSHOT] Current heap used: 100.0 MB"]],
        Throw (JsError "EPIPE")).
Proof.
  split; [reflexivity|].
  exact (takeSnapshot_usage_log_failure_propagates "/app" 250 world_logger_fails
           {| used_heap_size := 100 * MiB |} (JsError "EPIPE") eq_refl eq_refl).
Defined.

Lemma takeSnapshot_success_log_failure_is_caught_witness :
  v8_write world_success_log_fails "/app/heap-1700000000000.heapsnapshot" = Normal tt
  /\ console world_success_log_fails Info
       [JsString
          "[SNAPSHOT] Snapshot written: /app/heap-1700000000000.heapsnapshot (used 100.0 MB)"]
     = Throw (JsError "EPIPE")
  /\ takeSnapshot "/app" 250 world_success_log_fails
     = ([GetHeapStatistics;
         Log Info [JsString "[SNAPSHOT] Current heap used: 100.0 MB"];
         DateNow;
         WriteHeapSnapshot "/app/heap-1700000000000.heapsnapshot";
         Log Info [JsString
           "[SNAPSHOT] Snapshot written: /app/heap-1700000000000.heapsnapshot (used 100.0 MB)"];
         Log Error [JsString "[SNAPSHOT] Snapshot failed:"; JsString "EPIPE"]],
        Normal tt).
Proof.
  assert (Hle : (heapUsedMB_of {| used_heap_size := 100 * MiB |} <= inject_Z 250)%Q)
    by (unfold Qle; simpl; lia).
  split; [reflexivity|]. split; [reflexivity|].
  exact (takeSnapshot_success_log_failure_is_caught "/app" 250
           world_success_log_fails {| used_heap_size := 100 * MiB |} "EPIPE"
           eq_refl Hle eq_refl eq_refl eq_refl eq_refl).
Defined.

Lemma takeSnapshot_non_error_raise_logs_undefined_witness :
  v8_write world_raises_string (snapshot_filename "/app" (clock world_raises_string))
    = Throw (JsString "ENOSPC")
  /\ outcome (takeSnapshot "/app" 250) world_raises_string = Normal tt
  /\ logged Error (calls (takeSnapshot "/app" 250) world_raises_string)
     = [[JsString "[SNAPSHOT] Snapshot failed:"; JsUndefined]].
Proof.
  assert (Hle : (heapUsedMB_of {| used_heap_size := 100 * MiB |} <= inject_Z 250)%Q)
    by (unfold Qle; simpl; lia).
  assert (Hnoterr : forall m, JsString "ENOSPC" <> JsError m)
    by (intros m H; discriminate H).
  split; [reflexivity|].
  exact (takeSnapshot_non_error_raise_logs_undefined "/app" 250
           world_raises_string {| used_heap_size := 100 * MiB |}
           (JsString "ENOSPC") eq_refl (fun lvl args => eq_refl) Hle
           eq_refl eq_refl Hnoterr).
Defined.

Lemma takeSnapshot_nullish_raise_escapes_witness :
  v8_write world_raises_null (snapshot_filename "/app" (clock world_raises_null))
    = Throw JsNull
  /\ (exists text,
        outcome (takeSnapshot "/app" 250) world_raises_null = Throw (JsError text))
  /\ calls (takeSnapshot "/app" 250) world_raises_null
     = [GetHeapStatistics;
        Log Info [JsString "[SNAPSHOT] Current heap used: 100.0 MB"];
        DateNow;
        WriteHeapSnapshot "/app/heap-1700000000000.heapsnapshot"]
  /\ logged Error (calls (takeSnapshot "/app" 250) world_raises_null) = [].
Proof.
  assert (Hle : (heapUsedMB_of {| used_heap_size := 100 * MiB |} <= inject_Z 250)%Q)
    by (unfold Qle; simpl; lia).
  split; [reflexivity|].
  exact (takeSnapshot_nullish_raise_escapes "/app" 250 world_raises_null
           {| used_heap_size := 100 * MiB |} JsNull eq_refl
           (fun lvl args => eq_refl) Hle eq_refl eq_refl).
Defined.

Lemma takeSnapshot_skips_iff_bytes_exceed_witness :
  (writes (calls (takeSnapshot "/app" 250) world_high) = []
   <-> (250 * 1048576 < Z.of_N (300 * MiB))%Z)
  /\ (writes (calls (takeSnapshot "/app" 250) world_at_threshold) = []
      <-> (250 * 1048576 < Z.of_N (250 * MiB))%Z)
  /\ (250 * 1048576 < Z.of_N (300 * MiB))%Z
  /\ ~ (250 * 1048576 < Z.of_N (250 * MiB))%Z.
Proof.
  split; [|split; [|split]].
  - exact (takeSnapshot_skips_iff_bytes_exceed "/app" 250 world_high
             {| used_heap_size := 300 * MiB |} eq_refl (fun lvl args => eq_refl)).
  - exact (takeSnapshot_skips_iff_bytes_exceed "/app" 250 world_at_threshold
             {| used_heap_size := 250 * MiB |} eq_refl (fun lvl args => eq_refl)).
  - reflexivity.
  - simpl; lia.
Defined.

Lemma takeSnapshot_success_line_names_file_witness :
  v8_write world_low (snapshot_filename "/app" (clock world_low)) = Normal tt
  /\ logged Error (calls (takeSnapshot "/app" 250) world_low) = []
  /\ logged Info (calls (takeSnapshot "/app" 250) world_low)
     = [[JsString "[SNAPSHOT] Current heap used: 100.0 MB"];
        [JsString
           "[SNAPSHOT] Snapshot written: /app/heap-1700000000000.heapsnapshot (used 100.0 MB)"]].
Proof.
  assert (Hle : (heapUsedMB_of {| used_heap_size := 100 * MiB |} <= inject_Z 250)%Q)
    by (unfold Qle; simpl; lia).
  split; [reflexivity|].
  destruct (takeSnapshot_success_line_names_file "/app" 250 world_low
              {| used_heap_size := 100 * MiB |} eq_refl
              (fun lvl args => eq_refl) Hle eq_refl)
    as (_ & Herr & Hinfo & _).
  split; [exact Herr | exact Hinfo].
Defined.

Lemma usage_report_memory_read_failure_propagates_witness :
  process_memory world_memory_read_fails = Throw (JsError "ENOMEM")
  /\ usage_report world_memory_read_fails
     = ([ProcessMemoryUsage], Throw (JsError "ENOMEM")).
Proof.
  split; [reflexivity|].
  exact (usage_report_memory_read_failure_propagates world_memory_read_fails
           _ eq_refl).
Defined.

